(** * The transaction confirmation workflow of web3-core-method

    A shallow embedding of
    [packages/web3-core-method/src/workflows/TransactionConfirmationWorkflow.js]
    and the properties of its four methods ([execute],
    [getTransactionReceipt], [handleSuccessState], [handleErrorState]) and of
    the three anonymous handlers [execute] installs.

    The file runs under ["use strict"]: a plain [function] handed to
    [Promise.prototype.then] is called without a receiver, so [this] is
    [undefined] inside it, and reading a member of [undefined] throws a
    [TypeError].  The embedding therefore passes the receiver explicitly
    ([This]) and keeps, for every [this.x] / [self.x] of the source, which of
    the two the source wrote.

    Effects are modelled by a state-and-exception monad over a [World] that
    holds the state of the confirmation model and of the head watcher, the
    requests in flight, and a chronological log of every call that crosses
    the boundary of the component.

    The workflow is driven in two ways.  [workflow] runs [execute] and then
    feeds it what the outside world produces: responses of the provider and
    head notifications of the watcher ([External]).  [deliverAll] hands an
    occurrence directly to the handler the source wrote for it: a head
    notification to the listener, a formatted receipt to the handler of the
    fetch ([Delivery]); it says what a handler does once it is called.
    [arriveAll] stays inside what the collaborators can do: a head
    notification reaches the listener only while the watcher runs, and a
    formatted receipt answers the oldest request in flight ([Arrival]). *)

From Stdlib Require Import String List Bool Arith Lia DecimalString.
Import ListNotations.
Open Scope string_scope.
Open Scope list_scope.

(** ** JavaScript values the workflow handles *)

(** Error values: [new Error(message)] built by the code or by a collaborator,
    and the [TypeError] the runtime raises. *)
Inductive JsError : Type :=
| Error (message : string)
| TypeError (message : string).

(** The receiver of a call. *)
Inductive This : Type :=
| ThisUndefined
| ThisWorkflow.

(** What [transactionReceiptValidator.validate] returns: [true], or a
    diagnostic that the code compares with [=== true] and then uses as the
    error value. *)
Inductive ValidationResult : Type :=
| Valid
| Invalid (diagnostic : JsError).

(** A settled promise. *)
Inductive Settled (A : Type) : Type :=
| Fulfilled (value : A)
| Rejected (reason : JsError).
Arguments Fulfilled {A} value.
Arguments Rejected {A} reason.

(** How a call completes: normally with a value, or by a throw. *)
Inductive Completion (A : Type) : Type :=
| Normal (a : A)
| Throw (e : JsError).
Arguments Normal {A} a.
Arguments Throw {A} e.

(** The value a call evaluates to, as far as [x.apply(...)] can tell. *)
Inductive JsValue : Type :=
| JsUndefined
| JsCallable.

(** The handler a caller attaches with [.then] to the promise returned by
    [getTransactionReceipt]: the one of [execute] (source lines 68-119) or the
    one of the head listener (lines 85-106). *)
Inductive Continuation : Type :=
| FirstCheck
| Refetch.

(** Members read through [this.] or [self.] somewhere in the file. *)
Module Field.
Inductive t : Type :=
| transactionConfirmationModel
| transactionReceiptValidator
| newHeadsWatcher
| methodModel
| provider
| promiEvent
| callback
| formatters
| getTransactionReceipt
| handleSuccessState
| handleErrorState.

Definition name (f : t) : string :=
  match f with
  | transactionConfirmationModel => "transactionConfirmationModel"
  | transactionReceiptValidator => "transactionReceiptValidator"
  | newHeadsWatcher => "newHeadsWatcher"
  | methodModel => "methodModel"
  | provider => "provider"
  | promiEvent => "promiEvent"
  | callback => "callback"
  | formatters => "formatters"
  | getTransactionReceipt => "getTransactionReceipt"
  | handleSuccessState => "handleSuccessState"
  | handleErrorState => "handleErrorState"
  end.

(** The members a workflow instance has once [execute] has started: three
    assigned by the constructor (lines 37-39), four by [execute] (lines
    63-66), three prototype methods.  Nothing in the file assigns
    [formatters], and the file requires no module of that name. *)
Definition defined (f : t) : bool :=
  match f with
  | formatters => false
  | _ => true
  end.
End Field.

(** The text of the two timeout errors (lines 111 and 114); a number is
    concatenated in decimal.  The second text has no space before the
    number, as in the source. *)
Definition decimal (n : nat) : string := NilZero.string_of_uint (Nat.to_uint n).

Definition blocksMessage (timeoutBlock : nat) : string :=
  ("Transaction was not mined within " ++ decimal timeoutBlock
   ++ " blocks, please make sure your transaction was properly sent. Be aware that it might still be mined!")%string.

Definition secondsMessage (pollingTimeout : nat) : string :=
  ("Transaction was not mined within" ++ decimal pollingTimeout
   ++ " seconds, please make sure your transaction was properly sent. Be aware that it might still be mined!")%string.

(** [receipt.blockHash] as a condition: [null], [undefined] and the empty
    string are falsy. *)
Definition truthy (s : option string) : bool :=
  match s with
  | Some EmptyString => false
  | Some _ => true
  | None => false
  end.

(** ** The confirmation model and the collaborators *)

(** The fields of [transactionConfirmationModel] the workflow reads or
    writes, with the configured target depth; [R] is the type of receipt
    objects. *)
Record TransactionConfirmationModel (R : Type) : Type := mkModel {
  confirmationsCount : nat;
  confirmations : list (option R);
  timeoutCounter : nat;
  requiredConfirmations : nat;
  TIMEOUTBLOCK : nat;
  POLLINGTIMEOUT : nat
}.
Arguments mkModel {R} _ _ _ _ _ _.
Arguments confirmationsCount {R} _.
Arguments confirmations {R} _.
Arguments timeoutCounter {R} _.
Arguments requiredConfirmations {R} _.
Arguments TIMEOUTBLOCK {R} _.
Arguments POLLINGTIMEOUT {R} _.

(** [timeoutCounter++] (line 83). *)
Definition incrementTimeoutCounter {R : Type} (m : TransactionConfirmationModel R)
  : TransactionConfirmationModel R :=
  mkModel (confirmationsCount m) (confirmations m) (S (timeoutCounter m))
          (requiredConfirmations m) (TIMEOUTBLOCK m) (POLLINGTIMEOUT m).

(** What the workflow is given and is not part of this file: the types of
    the data that flows through, and the operations of the provider's
    formatter, the receipt validator, the method model, the head watcher, the
    confirmation model and the result object.  A receipt is [null] ([None])
    or a formatted object. *)
Class Collaborators : Type := {
  (** the raw JSON of an RPC response *)
  Raw : Type;
  (** a formatted receipt object *)
  ReceiptObj : Type;
  (** what [methodModel.afterExecution] returns *)
  Mapped : Type;
  blockHash : ReceiptObj -> option string;
  outputTransactionReceiptFormatter : Raw -> option ReceiptObj;
  validate : option ReceiptObj -> ValidationResult;
  afterExecution : option ReceiptObj -> Mapped;
  isPolling : bool;
  addConfirmation :
    option ReceiptObj -> TransactionConfirmationModel ReceiptObj ->
    TransactionConfirmationModel ReceiptObj;
  isConfirmed : TransactionConfirmationModel ReceiptObj -> bool;
  isTimeoutTimeExceeded : TransactionConfirmationModel ReceiptObj -> bool;
  (** what [promiEvent.reject(error)] evaluates to *)
  rejectResult : JsValue
}.

Section Workflow.

Context {C : Collaborators}.

Definition Receipt : Type := option ReceiptObj.

Definition Model : Type := TransactionConfirmationModel ReceiptObj.

(** *** Observable effects *)

Inductive Effect : Type :=
| Send (method : string) (params : list string)
| Watch
| OnNewHead
| Stop
| Resolve (value : Mapped)
| Reject (reason : JsError)
| EmitReceipt (value : Mapped)
| EmitConfirmation (count : nat) (receipt : Receipt)
| EmitError (error : JsError) (receipt : option Receipt)
| RemoveAllListeners
| Callback (error : option JsError) (result : option Mapped)
| UnhandledRejection (reason : JsError)
| UncaughtException (error : JsError).

Record World : Type := mkWorld {
  model : Model;
  (** the head watcher runs: [watch] was called and [stop] was not since *)
  watching : bool;
  (** a listener for ["newHead"] is registered on the watcher *)
  listening : bool;
  (** the requests in flight, oldest first, each with its [.then] handler *)
  pending : list Continuation;
  (** every boundary call so far, oldest first *)
  log : list Effect
}.

(** *** The monad: state, and a completion that is normal or a throw *)

Definition M (A : Type) : Type := World -> Completion A * World.

Definition ret {A : Type} (a : A) : M A := fun w => (Normal a, w).

Definition throw {A : Type} (e : JsError) : M A := fun w => (Throw e, w).

Definition bind {A B : Type} (c : M A) (k : A -> M B) : M B :=
  fun w =>
    match c w with
    | (Normal a, w') => k a w'
    | (Throw e, w') => (Throw e, w')
    end.

Notation "x <- c ;; k" := (bind c (fun x => k))
  (at level 61, c at next level, right associativity).
Notation "c ;; k" := (bind c (fun _ => k))
  (at level 61, right associativity).

Definition tell (e : Effect) : M unit :=
  fun w =>
    (Normal tt,
     mkWorld (model w) (watching w) (listening w) (pending w) (log w ++ [e])).

Definition getModel : M Model :=
  fun w => (Normal (model w), w).

Definition updateModel (f : Model -> Model) : M unit :=
  fun w =>
    (Normal tt,
     mkWorld (f (model w)) (watching w) (listening w) (pending w) (log w)).

Definition setWatching (b : bool) : M unit :=
  fun w => (Normal tt, mkWorld (model w) b (listening w) (pending w) (log w)).

Definition setListening (b : bool) : M unit :=
  fun w => (Normal tt, mkWorld (model w) (watching w) b (pending w) (log w)).

Definition setPending (p : list Continuation) (w : World) : World :=
  mkWorld (model w) (watching w) (listening w) p (log w).

(** [.then(handler)] on the promise of a request just sent. *)
Definition attach (k : Continuation) : M unit :=
  fun w => (Normal tt, setPending (pending w ++ [k]) w).

(** *** Member access *)

(** [this.f.g]: reading [f] throws when there is no receiver; reading [g]
    of the result throws when [f] is not a member of the workflow. *)
Definition member (this : This) (f : Field.t) (g : string) : M unit :=
  match this with
  | ThisUndefined =>
      throw (TypeError ("Cannot read property '" ++ Field.name f ++ "' of undefined")%string)
  | ThisWorkflow =>
      if Field.defined f then ret tt
      else throw (TypeError ("Cannot read property '" ++ g ++ "' of undefined")%string)
  end.

(** [this.f(...)]: only the receiver is read. *)
Definition method (this : This) (f : Field.t) : M unit :=
  match this with
  | ThisUndefined =>
      throw (TypeError ("Cannot read property '" ++ Field.name f ++ "' of undefined")%string)
  | ThisWorkflow => ret tt
  end.

(** [this.f = v] *)
Definition assign (this : This) (f : Field.t) : M unit :=
  match this with
  | ThisUndefined =>
      throw (TypeError ("Cannot set property '" ++ Field.name f ++ "' of undefined")%string)
  | ThisWorkflow => ret tt
  end.

(** [v.apply(...)] *)
Definition callApply (v : JsValue) : M unit :=
  match v with
  | JsUndefined => throw (TypeError "Cannot read property 'apply' of undefined")
  | JsCallable => ret tt
  end.

(** *** The collaborators' calls *)

Definition stop : M unit := tell Stop ;; setWatching false.

Definition watch : M unit := tell Watch ;; setWatching true.

Definition on_newHead : M unit := tell OnNewHead ;; setListening true.

Definition reject (e : JsError) : M JsValue := tell (Reject e) ;; ret rejectResult.

(** *** The methods of the workflow *)

(** Lines 146-156. *)
Definition handleSuccessState (this : This) (receipt : Receipt) : M unit :=
  member this Field.newHeadsWatcher "stop" ;;
  stop ;;
  member this Field.methodModel "afterExecution" ;;
  let mappedReceipt := afterExecution receipt in
  member this Field.promiEvent "resolve" ;;
  tell (Resolve mappedReceipt) ;;
  member this Field.promiEvent "eventEmitter" ;;
  tell (EmitReceipt mappedReceipt) ;;
  member this Field.promiEvent "eventEmitter" ;;
  tell RemoveAllListeners ;;
  method this Field.callback ;;
  tell (Callback None (Some mappedReceipt)).

(** Lines 167-175. *)
Definition handleErrorState (this : This) (error : JsError) : M unit :=
  member this Field.newHeadsWatcher "stop" ;;
  stop ;;
  member this Field.promiEvent "reject" ;;
  r <- reject error ;;
  callApply r ;;
  member this Field.promiEvent "eventEmitter" ;;
  tell (EmitError error None) ;;
  member this Field.promiEvent "eventEmitter" ;;
  tell RemoveAllListeners ;;
  method this Field.callback ;;
  tell (Callback (Some error) None).

(** Lines 131-135, the part that runs at the call: one request is sent. *)
Definition getTransactionReceipt (this : This) (transactionHash : string) : M unit :=
  member this Field.provider "send" ;;
  tell (Send "eth_getTransactionReceipt" [transactionHash]).

(** Lines 132-134, the handler [getTransactionReceipt] attaches to the
    request. *)
Definition formatCallback (this : This) (receipt : Raw) : M Receipt :=
  member this Field.formatters "outputTransactionReceiptFormatter" ;;
  ret (outputTransactionReceiptFormatter receipt).

(** Lines 85-106, the handler of a re-fetch; it reads [self], [promiEvent]
    and [callback] from its closure and never [this]. *)
Definition refetchCallback (receipt : Receipt) : M unit :=
  match validate receipt with
  | Valid =>
      updateModel (addConfirmation receipt) ;;
      m <- getModel ;;
      tell (EmitConfirmation (confirmationsCount m) receipt) ;;
      if isConfirmed m then handleSuccessState ThisWorkflow receipt else ret tt
  | Invalid validationResult =>
      _ <- reject validationResult ;;
      tell (EmitError validationResult (Some receipt)) ;;
      tell RemoveAllListeners ;;
      tell (Callback (Some validationResult) None)
  end.

(** Lines 111-115. *)
Definition timeoutError (m : Model) : JsError :=
  if isPolling then Error (secondsMessage (POLLINGTIMEOUT m))
  else Error (blocksMessage (TIMEOUTBLOCK m)).

(** Lines 82-118, the listener for ["newHead"]. *)
Definition newHeadListener (transactionHash : string) : M unit :=
  updateModel incrementTimeoutCounter ;;
  m <- getModel ;;
  if negb (isTimeoutTimeExceeded m) then
    getTransactionReceipt ThisWorkflow transactionHash ;;
    attach Refetch
  else
    handleErrorState ThisWorkflow (timeoutError m).

(** [receipt && receipt.blockHash] (line 69). *)
Definition mined (receipt : Receipt) : bool :=
  match receipt with
  | Some r => truthy (blockHash r)
  | None => false
  end.

(** Lines 68-119, the handler of the first check.  Lines 70 and 72 go
    through [this], lines 77 and 82 through [self]. *)
Definition firstCheckCallback (this : This) (receipt : Receipt) : M unit :=
  if mined receipt then
    member this Field.transactionReceiptValidator "validate" ;;
    match validate receipt with
    | Valid =>
        method this Field.handleSuccessState ;;
        handleSuccessState this receipt
    | Invalid validationResult =>
        handleErrorState ThisWorkflow validationResult
    end
  else
    watch ;;
    on_newHead.

(** Lines 55-120, the part that runs at the call. *)
Definition execute (this : This) (transactionHash : string) : M unit :=
  assign this Field.methodModel ;;
  assign this Field.provider ;;
  assign this Field.promiEvent ;;
  assign this Field.callback ;;
  method this Field.getTransactionReceipt ;;
  getTransactionReceipt this transactionHash ;;
  attach FirstCheck.

(** *** Promises and the event loop *)

(** [p.then(f)]: [f] is called without a receiver; what it throws rejects
    the new promise; a rejection of [p] passes through. *)
Definition thenP {A B : Type} (p : Settled A) (f : This -> A -> M B) : M (Settled B) :=
  match p with
  | Rejected e => ret (Rejected e)
  | Fulfilled a =>
      fun w =>
        match f ThisUndefined a w with
        | (Normal b, w') => (Normal (Fulfilled b), w')
        | (Throw e, w') => (Normal (Rejected e), w')
        end
  end.

Definition handlerOf (k : Continuation) : This -> Receipt -> M unit :=
  match k with
  | FirstCheck => firstCheckCallback
  | Refetch => fun _ => refetchCallback
  end.

(** The promise of [getTransactionReceipt] settles: the caller's handler
    runs, and a rejection at the end of the chain has no handler. *)
Definition settleReceipt (k : Continuation) (receipt : Settled Receipt) : M unit :=
  done <- thenP receipt (handlerOf k) ;;
  match done with
  | Fulfilled _ => ret tt
  | Rejected e => tell (UnhandledRejection e)
  end.

(** The request settles: the two [.then] links run in turn. *)
Definition settle (k : Continuation) (response : Settled Raw) : M unit :=
  receipt <- thenP response formatCallback ;;
  settleReceipt k receipt.

(** The listener is called by the watcher; what it throws escapes into the
    watcher. *)
Definition notify (transactionHash : string) (w : World) : World :=
  match newHeadListener transactionHash w with
  | (Normal _, w') => w'
  | (Throw e, w') => snd (tell (UncaughtException e) w')
  end.

(** What reaches the workflow from outside. *)
Inductive External : Type :=
| Response (response : Settled Raw)
| NewHead.

(** A response settles the oldest request in flight.  The watcher delivers
    a head notification to the registered listener while it runs. *)
Definition step (transactionHash : string) (ev : External) (w : World) : World :=
  match ev with
  | Response r =>
      match pending w with
      | [] => w
      | k :: rest => snd (settle k r (setPending rest w))
      end
  | NewHead =>
      if listening w && watching w then notify transactionHash w else w
  end.

Definition run (transactionHash : string) (evs : list External) (w : World) : World :=
  fold_left (fun w ev => step transactionHash ev w) evs w.

Definition initial (m : Model) : World :=
  mkWorld m false false [] [].

(** [execute] followed by the given external events. *)
Definition workflow (transactionHash : string) (m : Model)
  (evs : list External) : World :=
  run transactionHash evs (snd (execute ThisWorkflow transactionHash (initial m))).

(** *** The handlers driven directly *)

(** An occurrence handed to the handler the source registered for it: a head
    notification to the listener, whether or not the watcher still runs, and
    a formatted receipt to the [.then] handler of a fetch.  [deliver] neither
    consults nor updates the requests in flight; [arrive] below does. *)
Inductive Delivery : Type :=
| Head
| Got (k : Continuation) (receipt : Receipt).

Definition deliver (transactionHash : string) (d : Delivery) (w : World) : World :=
  match d with
  | Head => notify transactionHash w
  | Got k receipt => snd (settleReceipt k (Fulfilled receipt) w)
  end.

Definition deliverAll (transactionHash : string) (ds : list Delivery) (w : World) : World :=
  fold_left (fun w d => deliver transactionHash d w) ds w.

(** *** Reading a log *)

Definition isSend (e : Effect) : bool :=
  match e with Send _ _ => true | _ => false end.

Definition isStop (e : Effect) : bool :=
  match e with Stop => true | _ => false end.

Definition isResolve (e : Effect) : bool :=
  match e with Resolve _ => true | _ => false end.

Definition isReject (e : Effect) : bool :=
  match e with Reject _ => true | _ => false end.

Definition isEmitReceipt (e : Effect) : bool :=
  match e with EmitReceipt _ => true | _ => false end.

Definition isEmitConfirmation (e : Effect) : bool :=
  match e with EmitConfirmation _ _ => true | _ => false end.

Definition isEmitError (e : Effect) : bool :=
  match e with EmitError _ _ => true | _ => false end.

Definition isRemoveAllListeners (e : Effect) : bool :=
  match e with RemoveAllListeners => true | _ => false end.

Definition isCallback (e : Effect) : bool :=
  match e with Callback _ _ => true | _ => false end.

Definition isUnhandledRejection (e : Effect) : bool :=
  match e with UnhandledRejection _ => true | _ => false end.

Definition count (p : Effect -> bool) (l : list Effect) : nat :=
  length (filter p l).

End Workflow.

(** ** The confirmation model, from its contract *)

(** Modelled from the spec: the constructor of TransactionConfirmationModel,
    which is not in the source at hand; both counters start at 0 and the
    thresholds are configured. *)
Definition newModel {R : Type} (required timeoutBlock pollingTimeout : nat)
  : TransactionConfirmationModel R :=
  mkModel 0 [] 0 required timeoutBlock pollingTimeout.

(** Modelled from the spec: TransactionConfirmationModel.addConfirmation,
    which is not in the source at hand; it increments the counter and records
    the receipt. *)
Definition specAddConfirmation {R : Type} (receipt : option R)
  (m : TransactionConfirmationModel R) : TransactionConfirmationModel R :=
  mkModel (S (confirmationsCount m)) (confirmations m ++ [receipt]) (timeoutCounter m)
          (requiredConfirmations m) (TIMEOUTBLOCK m) (POLLINGTIMEOUT m).

(** Modelled from the spec: TransactionConfirmationModel.isConfirmed, which
    is not in the source at hand; whether [confirmationsCount >=
    requiredConfirmations]. *)
Definition specIsConfirmed {R : Type} (m : TransactionConfirmationModel R) : bool :=
  (requiredConfirmations m <=? confirmationsCount m)%nat.

(** Modelled from the spec: TransactionConfirmationModel.isTimeoutTimeExceeded,
    which is not in the source at hand; whether [timeoutCounter] has passed
    the threshold, the block count in push mode and the polling limit in
    polling mode. *)
Definition specIsTimeoutTimeExceeded {R : Type} (polling : bool)
  (m : TransactionConfirmationModel R) : bool :=
  if polling then (POLLINGTIMEOUT m <? timeoutCounter m)%nat
  else (TIMEOUTBLOCK m <? timeoutCounter m)%nat.

(** ** A concrete set of collaborators *)

(** A receipt with the one field the workflow reads and a status for the
    validator to judge. *)
Record SampleReceipt : Type := mkReceipt {
  sampleBlockHash : option string;
  sampleStatus : bool
}.

Definition sampleValidate (receipt : option SampleReceipt) : ValidationResult :=
  match receipt with
  | Some r =>
      if sampleStatus r then Valid
      else Invalid (Error "Transaction has been reverted by the EVM")
  | None => Invalid (Error "Receipt missing or blockHash null")
  end.

(** The node answers with the receipt itself, the formatter and the method
    model leave it as it is, and the confirmation model follows its
    contract. *)
Definition sample (polling : bool) (rejectValue : JsValue) : Collaborators := {|
  Raw := option SampleReceipt;
  ReceiptObj := SampleReceipt;
  Mapped := option SampleReceipt;
  blockHash := sampleBlockHash;
  outputTransactionReceiptFormatter := fun raw => raw;
  validate := sampleValidate;
  afterExecution := fun receipt => receipt;
  isPolling := polling;
  addConfirmation := specAddConfirmation;
  isConfirmed := specIsConfirmed;
  isTimeoutTimeExceeded := specIsTimeoutTimeExceeded polling;
  rejectResult := rejectValue
|}.

Definition minedReceipt : option SampleReceipt :=
  Some (mkReceipt (Some "0xb1") true).

Definition revertedReceipt : option SampleReceipt :=
  Some (mkReceipt (Some "0xb1") false).

Definition txHash : string := "0x7a".

(** Deliveries and responses typed for [sample]. *)
Definition got (polling : bool) (rejectValue : JsValue) (k : Continuation)
  (receipt : option SampleReceipt) : @Delivery (sample polling rejectValue) :=
  @Got (sample polling rejectValue) k receipt.

Definition answers (polling : bool) (rejectValue : JsValue)
  (response : Settled (option SampleReceipt)) : @External (sample polling rejectValue) :=
  @Response (sample polling rejectValue) response.

(** The world right after [execute] on a fresh model, and the world once
    the handler of the first check has been handed [null] (not mined yet)
    and [heads] head notifications have been handed to the listener. *)
Definition started (polling : bool) (rejectValue : JsValue)
  (m : TransactionConfirmationModel SampleReceipt) : @World (sample polling rejectValue) :=
  snd (@execute (sample polling rejectValue) ThisWorkflow txHash
         (@initial (sample polling rejectValue) m)).

Definition waiting (polling : bool) (rejectValue : JsValue)
  (m : TransactionConfirmationModel SampleReceipt) (heads : nat)
  : @World (sample polling rejectValue) :=
  @deliverAll (sample polling rejectValue) txHash
    (got polling rejectValue FirstCheck None :: repeat Head heads)
    (started polling rejectValue m).

(** * Properties *)

Section Properties.

Context {C : Collaborators}.

Ltac unfold_workflow :=
  unfold handleSuccessState, handleErrorState, getTransactionReceipt,
    formatCallback, refetchCallback, newHeadListener, firstCheckCallback,
    execute, settle, settleReceipt, thenP, handlerOf, stop, watch, on_newHead,
    reject, callApply, assign, member, method, attach, tell, getModel, updateModel,
    setWatching, setListening, setPending, bind, ret, throw;
  simpl.

Ltac norm_log := repeat rewrite <- app_assoc; simpl.

(** ** Counting in a log *)

Lemma count_app (p : Effect -> bool) (l1 l2 : list Effect) :
  count p (l1 ++ l2) = count p l1 + count p l2.
Proof.
  unfold count. rewrite filter_app. apply length_app.
Qed.

Lemma count_cons_false (p : Effect -> bool) (a : Effect) (l : list Effect) :
  p a = false -> count p (a :: l) = count p l.
Proof.
  intros Ha. unfold count. simpl. rewrite Ha. reflexivity.
Qed.

(** ** The two terminal handlers, called on the workflow *)

Lemma handleSuccessState_on_workflow (receipt : Receipt) (w : World) :
  handleSuccessState ThisWorkflow receipt w =
  (Normal tt,
   mkWorld (model w) false (listening w) (pending w)
     (log w ++ [Stop; Resolve (afterExecution receipt);
                EmitReceipt (afterExecution receipt); RemoveAllListeners;
                Callback None (Some (afterExecution receipt))])).
Proof.
  unfold_workflow. norm_log. reflexivity.
Qed.

Lemma handleErrorState_on_workflow (error : JsError) (w : World) :
  handleErrorState ThisWorkflow error w =
  match rejectResult with
  | JsUndefined =>
      (Throw (TypeError "Cannot read property 'apply' of undefined"),
       mkWorld (model w) false (listening w) (pending w)
         (log w ++ [Stop; Reject error]))
  | JsCallable =>
      (Normal tt,
       mkWorld (model w) false (listening w) (pending w)
         (log w ++ [Stop; Reject error; EmitError error None;
                    RemoveAllListeners; Callback (Some error) None]))
  end.
Proof.
  unfold_workflow. destruct rejectResult; simpl; norm_log; reflexivity.
Qed.

Lemma handleErrorState_stops (error : JsError) (w : World) :
  watching (snd (handleErrorState ThisWorkflow error w)) = false.
Proof.
  rewrite handleErrorState_on_workflow. destruct rejectResult; reflexivity.
Qed.

(** ** Fetching a receipt *)

Lemma formatCallback_throws (this : This) (raw : Raw) (w : World) :
  exists message, formatCallback this raw w = (Throw (TypeError message), w).
Proof.
  destruct this; unfold_workflow; eexists; reflexivity.
Qed.

Lemma settle_fulfilled (k : Continuation) (raw : Raw) (w : World) :
  settle k (Fulfilled raw) w =
  (Normal tt,
   mkWorld (model w) (watching w) (listening w) (pending w)
     (log w ++ [UnhandledRejection
                  (TypeError "Cannot read property 'formatters' of undefined")])).
Proof.
  unfold_workflow. reflexivity.
Qed.

Lemma settle_rejected (k : Continuation) (e : JsError) (w : World) :
  settle k (Rejected e) w =
  (Normal tt,
   mkWorld (model w) (watching w) (listening w) (pending w)
     (log w ++ [UnhandledRejection e])).
Proof.
  unfold_workflow. reflexivity.
Qed.

Lemma execute_on_initial (transactionHash : string) (m : Model) :
  execute ThisWorkflow transactionHash (initial m) =
  (Normal tt,
   mkWorld m false false [FirstCheck]
     [Send "eth_getTransactionReceipt" [transactionHash]]).
Proof.
  reflexivity.
Qed.

(** ** The event loop *)

Lemma run_cons (transactionHash : string) (ev : External) (evs : list External)
  (w : World) :
  run transactionHash (ev :: evs) w = run transactionHash evs (step transactionHash ev w).
Proof.
  reflexivity.
Qed.

Lemma step_inert (transactionHash : string) (ev : External) (w : World) :
  listening w = false -> pending w = [] -> step transactionHash ev w = w.
Proof.
  intros Hl Hp. destruct ev; simpl.
  - rewrite Hp. reflexivity.
  - rewrite Hl. reflexivity.
Qed.

Lemma run_inert (transactionHash : string) (evs : list External) (w : World) :
  listening w = false -> pending w = [] -> run transactionHash evs w = w.
Proof.
  intros Hl Hp. induction evs as [|ev evs IH].
  - reflexivity.
  - rewrite run_cons, step_inert by assumption. exact IH.
Qed.


(** Whatever the first response is and whatever follows it, the log of the
    whole run is the request and the rejection nobody handles. *)
Lemma workflow_after_response (transactionHash : string) (m : Model)
  (response : Settled Raw) (evs : list External) :
  log (workflow transactionHash m (Response response :: evs)) =
  [Send "eth_getTransactionReceipt" [transactionHash];
   UnhandledRejection
     match response with
     | Fulfilled _ => TypeError "Cannot read property 'formatters' of undefined"
     | Rejected e => e
     end].
Proof.
  unfold workflow. rewrite execute_on_initial, run_cons. simpl step.
  destruct response as [raw|e].
  - rewrite settle_fulfilled. simpl snd. rewrite run_inert; reflexivity.
  - rewrite settle_rejected. simpl snd. rewrite run_inert; reflexivity.
Qed.

(** ** The first check *)

Lemma firstCheckCallback_without_receiver (receipt : Receipt) (w : World) :
  mined receipt = true ->
  firstCheckCallback ThisUndefined receipt w =
  (Throw (TypeError "Cannot read property 'transactionReceiptValidator' of undefined"), w).
Proof.
  intros Hm. unfold firstCheckCallback. rewrite Hm. reflexivity.
Qed.

(** With the workflow as receiver the same handler would do what its
    branches say: lines 70 and 72 differ from lines 77 and 82 only in writing
    [this] for [self]. *)
Lemma firstCheckCallback_with_receiver (receipt : Receipt) (w : World) :
  mined receipt = true ->
  firstCheckCallback ThisWorkflow receipt w =
  match validate receipt with
  | Valid => handleSuccessState ThisWorkflow receipt w
  | Invalid e => handleErrorState ThisWorkflow e w
  end.
Proof.
  intros Hm. unfold firstCheckCallback. rewrite Hm.
  destruct (validate receipt); reflexivity.
Qed.

Lemma firstCheckCallback_subscribes (this : This) (receipt : Receipt) (w : World) :
  mined receipt = false ->
  firstCheckCallback this receipt w =
  (Normal tt,
   mkWorld (model w) true true (pending w) (log w ++ [Watch; OnNewHead])).
Proof.
  intros Hm. unfold firstCheckCallback. rewrite Hm.
  unfold_workflow. norm_log. reflexivity.
Qed.

(** ** The head listener and the handler of a re-fetch *)

Lemma newHeadListener_refetches (transactionHash : string) (w : World) :
  isTimeoutTimeExceeded (incrementTimeoutCounter (model w)) = false ->
  newHeadListener transactionHash w =
  (Normal tt,
   mkWorld (incrementTimeoutCounter (model w)) (watching w) (listening w)
     (pending w ++ [Refetch])
     (log w ++ [Send "eth_getTransactionReceipt" [transactionHash]])).
Proof.
  intros Ht. unfold newHeadListener, bind, updateModel, getModel. simpl.
  rewrite Ht. reflexivity.
Qed.

Lemma newHeadListener_times_out (transactionHash : string) (w : World) :
  isTimeoutTimeExceeded (incrementTimeoutCounter (model w)) = true ->
  newHeadListener transactionHash w =
  handleErrorState ThisWorkflow (timeoutError (incrementTimeoutCounter (model w)))
    (mkWorld (incrementTimeoutCounter (model w)) (watching w) (listening w)
       (pending w) (log w)).
Proof.
  intros Ht. unfold newHeadListener, bind, updateModel, getModel. simpl.
  rewrite Ht. reflexivity.
Qed.

Lemma refetchCallback_valid (receipt : Receipt) (w : World) :
  validate receipt = Valid ->
  refetchCallback receipt w =
  let m := addConfirmation receipt (model w) in
  let w1 := mkWorld m (watching w) (listening w) (pending w)
              (log w ++ [EmitConfirmation (confirmationsCount m) receipt]) in
  if isConfirmed m then handleSuccessState ThisWorkflow receipt w1
  else (Normal tt, w1).
Proof.
  intros Hv. unfold refetchCallback. rewrite Hv.
  unfold bind, updateModel, getModel, tell, ret. simpl.
  destruct (isConfirmed (addConfirmation receipt (model w))); reflexivity.
Qed.

Lemma refetchCallback_invalid (receipt : Receipt) (e : JsError) (w : World) :
  validate receipt = Invalid e ->
  refetchCallback receipt w =
  (Normal tt,
   mkWorld (model w) (watching w) (listening w) (pending w)
     (log w ++ [Reject e; EmitError e (Some receipt); RemoveAllListeners;
                Callback (Some e) None])).
Proof.
  intros Hv. unfold refetchCallback. rewrite Hv.
  unfold_workflow. norm_log. reflexivity.
Qed.

Lemma refetchCallback_returns (receipt : Receipt) (w : World) :
  fst (refetchCallback receipt w) = Normal tt.
Proof.
  destruct (validate receipt) as [|e] eqn:Hv.
  - rewrite refetchCallback_valid by assumption. simpl.
    destruct (isConfirmed (addConfirmation receipt (model w))).
    + rewrite handleSuccessState_on_workflow. reflexivity.
    + reflexivity.
  - rewrite (refetchCallback_invalid receipt e) by assumption. reflexivity.
Qed.

(** ** The claims *)

(** C1.  A receipt that is mined and valid on the first check: the claim
    expects resolve, a "receipt" event and callback(false, mappedReceipt).
    The handler of the first check reads [this.transactionReceiptValidator]
    and throws before any of that; and in a whole run the handler is not
    even reached, because the formatting handler of
    [getTransactionReceipt] throws first.  The log of the run holds the
    request and an unhandled rejection, whatever events follow. *)
Theorem C1_first_check_success_is_lost (transactionHash : string) (m : Model)
  (raw : Raw) (evs : list External) (receipt : Receipt) (w : World) :
  mined receipt = true ->
  validate receipt = Valid ->
  firstCheckCallback ThisUndefined receipt w =
    (Throw (TypeError "Cannot read property 'transactionReceiptValidator' of undefined"), w)
  /\ log (workflow transactionHash m (Response (Fulfilled raw) :: evs)) =
       [Send "eth_getTransactionReceipt" [transactionHash];
        UnhandledRejection (TypeError "Cannot read property 'formatters' of undefined")]
  /\ count isResolve (log (workflow transactionHash m (Response (Fulfilled raw) :: evs))) = 0
  /\ count isEmitReceipt (log (workflow transactionHash m (Response (Fulfilled raw) :: evs))) = 0
  /\ count isCallback (log (workflow transactionHash m (Response (Fulfilled raw) :: evs))) = 0.
Proof.
  intros Hm _. split.
  - apply firstCheckCallback_without_receiver. exact Hm.
  - rewrite workflow_after_response. repeat split; reflexivity.
Qed.


(** C3 (amended).  A transport error reaches no failure handling: the run
    logs the request and an unhandled rejection.  A validation failure on a
    re-fetch yields exactly one reject, one "error" emission with the
    diagnostic and the receipt, the removal of all listeners and one
    callback (diagnostic, null).  A timeout goes to [handleErrorState],
    which stops the watcher and rejects exactly once with the timeout
    error. *)
Theorem C3_failure_kinds (transactionHash : string) (m : Model) (e : JsError)
  (receipt : Receipt) (w : World) :
  log (workflow transactionHash m [Response (Rejected e)]) =
    [Send "eth_getTransactionReceipt" [transactionHash]; UnhandledRejection e]
  /\ (validate receipt = Invalid e ->
      exists tr,
        log (snd (refetchCallback receipt w)) = log w ++ tr
        /\ count isReject tr = 1 /\ In (Reject e) tr
        /\ count isEmitError tr = 1 /\ In (EmitError e (Some receipt)) tr
        /\ In RemoveAllListeners tr
        /\ count isCallback tr = 1 /\ In (Callback (Some e) None) tr)
  /\ (isTimeoutTimeExceeded (incrementTimeoutCounter (model w)) = true ->
      watching (snd (newHeadListener transactionHash w)) = false
      /\ exists tr,
           log (snd (newHeadListener transactionHash w)) = log w ++ tr
           /\ In Stop tr
           /\ count isReject tr = 1
           /\ In (Reject (timeoutError (incrementTimeoutCounter (model w)))) tr).
Proof.
  split; [apply workflow_after_response|]. split.
  - intros Hv. rewrite (refetchCallback_invalid receipt e) by assumption.
    eexists. split; [reflexivity|]. simpl. intuition.
  - intros Ht. rewrite newHeadListener_times_out by assumption.
    rewrite handleErrorState_on_workflow.
    destruct rejectResult; simpl; (split; [reflexivity|]);
      eexists; (split; [reflexivity|]); simpl; intuition.
Qed.

(** C4 (amended).  [execute] returns normally and so does the handler of
    a re-fetch, which surfaces a validation failure through reject and the
    callback.  A transport error is not surfaced: it stays the rejection of
    a promise chain that has no handler. *)
Theorem C4_what_is_surfaced (transactionHash : string) (m : Model) (e : JsError)
  (receipt : Receipt) (w : World) :
  fst (execute ThisWorkflow transactionHash w) = Normal tt
  /\ fst (refetchCallback receipt w) = Normal tt
  /\ (forall d, validate receipt = Invalid d ->
        In (Reject d) (log (snd (refetchCallback receipt w)))
        /\ In (Callback (Some d) None) (log (snd (refetchCallback receipt w))))
  /\ log (workflow transactionHash m [Response (Rejected e)]) =
       [Send "eth_getTransactionReceipt" [transactionHash]; UnhandledRejection e].
Proof.
  split; [reflexivity|]. split; [apply refetchCallback_returns|]. split.
  - intros d Hv. rewrite (refetchCallback_invalid receipt d) by assumption.
    simpl. split; apply in_or_app; right; simpl; intuition.
  - apply workflow_after_response.
Qed.

(** C5.  [getTransactionReceipt] sends the one request the claim names.
    The handler it attaches throws for every response and every receiver,
    so the promise it returns is rejected with a TypeError whenever the node
    answers, with a receipt or with null, and with the transport error
    otherwise: it is never fulfilled. *)
Theorem C5_getTransactionReceipt_never_fulfils (transactionHash : string)
  (raw : Raw) (e : JsError) (this : This) (w : World) :
  getTransactionReceipt ThisWorkflow transactionHash w =
    (Normal tt,
     mkWorld (model w) (watching w) (listening w) (pending w)
       (log w ++ [Send "eth_getTransactionReceipt" [transactionHash]]))
  /\ thenP (Fulfilled raw) formatCallback w =
       (Normal (Rejected (TypeError "Cannot read property 'formatters' of undefined")), w)
  /\ thenP (Rejected e) formatCallback w = (Normal (Rejected e), w)
  /\ exists message, formatCallback this raw w = (Throw (TypeError message), w).
Proof.
  repeat split; try reflexivity. apply formatCallback_throws.
Qed.

(** C6.  A receipt that is mined and fails validation on the first check:
    the claim expects a reject with the diagnostic and callback(diagnostic,
    null).  The handler throws on [this.transactionReceiptValidator] before
    it validates, and a whole run logs neither a reject nor a callback. *)
Theorem C6_first_check_failure_is_lost (transactionHash : string) (m : Model)
  (raw : Raw) (evs : list External) (receipt : Receipt) (d : JsError) (w : World) :
  mined receipt = true ->
  validate receipt = Invalid d ->
  fst (firstCheckCallback ThisUndefined receipt w) =
    Throw (TypeError "Cannot read property 'transactionReceiptValidator' of undefined")
  /\ log (snd (firstCheckCallback ThisUndefined receipt w)) = log w
  /\ count isReject (log (workflow transactionHash m (Response (Fulfilled raw) :: evs))) = 0
  /\ count isEmitError (log (workflow transactionHash m (Response (Fulfilled raw) :: evs))) = 0
  /\ count isCallback (log (workflow transactionHash m (Response (Fulfilled raw) :: evs))) = 0.
Proof.
  intros Hm _. rewrite firstCheckCallback_without_receiver by assumption.
  rewrite workflow_after_response. repeat split; reflexivity.
Qed.

(** C7 (amended).  [timeoutCounter] starts at 0 and the listener adds
    exactly one at every head notification it handles, whatever the
    confirmation count is. *)
Theorem C7_timeoutCounter_counts_every_head (transactionHash : string) (w : World)
  (required timeoutBlock pollingTimeout : nat) :
  timeoutCounter (@newModel ReceiptObj required timeoutBlock pollingTimeout) = 0
  /\ timeoutCounter (model (snd (newHeadListener transactionHash w))) =
     S (timeoutCounter (model w)).
Proof.
  split; [reflexivity|].
  destruct (isTimeoutTimeExceeded (incrementTimeoutCounter (model w))) eqn:Ht.
  - rewrite newHeadListener_times_out by assumption.
    rewrite handleErrorState_on_workflow. destruct rejectResult; reflexivity.
  - rewrite newHeadListener_refetches by assumption. reflexivity.
Qed.

(** C8.  On a head notification that finds the threshold exceeded the
    listener fetches nothing and calls [handleErrorState] with an error
    whose text counts blocks (TIMEOUTBLOCK) when the watcher does not poll
    and seconds (POLLINGTIMEOUT) when it does; the watcher is stopped and
    the result object rejected with that error. *)
Theorem C8_timeout_error_by_mode (transactionHash : string) (w : World) :
  isTimeoutTimeExceeded (incrementTimeoutCounter (model w)) = true ->
  newHeadListener transactionHash w =
    handleErrorState ThisWorkflow (timeoutError (incrementTimeoutCounter (model w)))
      (mkWorld (incrementTimeoutCounter (model w)) (watching w) (listening w)
         (pending w) (log w))
  /\ (isPolling = false ->
      timeoutError (incrementTimeoutCounter (model w)) =
      Error ("Transaction was not mined within " ++ decimal (TIMEOUTBLOCK (model w))
             ++ " blocks, please make sure your transaction was properly sent. Be aware that it might still be mined!")%string)
  /\ (isPolling = true ->
      timeoutError (incrementTimeoutCounter (model w)) =
      Error ("Transaction was not mined within" ++ decimal (POLLINGTIMEOUT (model w))
             ++ " seconds, please make sure your transaction was properly sent. Be aware that it might still be mined!")%string)
  /\ watching (snd (newHeadListener transactionHash w)) = false
  /\ exists tr,
       log (snd (newHeadListener transactionHash w)) =
         log w ++ Stop :: Reject (timeoutError (incrementTimeoutCounter (model w))) :: tr
       /\ count isSend tr = 0.
Proof.
  intros Ht. split; [apply newHeadListener_times_out; exact Ht|].
  split; [intros Hp; unfold timeoutError; rewrite Hp; reflexivity|].
  split; [intros Hp; unfold timeoutError; rewrite Hp; reflexivity|].
  rewrite newHeadListener_times_out by assumption.
  rewrite handleErrorState_on_workflow.
  destruct rejectResult; simpl; (split; [reflexivity|]);
    eexists; (split; [reflexivity|]); reflexivity.
Qed.

(** X9.  For a confirmation model that follows its contract
    ([addConfirmation] adds one to the count, [isConfirmed] compares the
    count with the required depth): the listener, called below the
    threshold, sends exactly one request for the receipt; the handler of a
    re-fetch, called with a receipt that validates, raises the count by
    exactly one and emits one "confirmation" with the new count and the
    receipt; the result is resolved in that handler exactly when the new
    count has reached the required depth, so with a required depth of 3
    never at count 1 or 2. *)
Theorem X9_refetch_and_confirmations (transactionHash : string)
  (receipt : Receipt) (w : World) :
  (forall r m, confirmationsCount (addConfirmation r m) = S (confirmationsCount m)) ->
  (forall m, isConfirmed m = (requiredConfirmations m <=? confirmationsCount m)%nat) ->
  (isTimeoutTimeExceeded (incrementTimeoutCounter (model w)) = false ->
     log (snd (newHeadListener transactionHash w)) =
       log w ++ [Send "eth_getTransactionReceipt" [transactionHash]]
     /\ pending (snd (newHeadListener transactionHash w)) = pending w ++ [Refetch])
  /\ (validate receipt = Valid ->
      confirmationsCount (model (snd (refetchCallback receipt w))) =
        S (confirmationsCount (model w))
      /\ exists tr,
           log (snd (refetchCallback receipt w)) =
             log w ++ EmitConfirmation (S (confirmationsCount (model w))) receipt :: tr
           /\ count isEmitConfirmation tr = 0
           /\ count isResolve tr =
                (if (requiredConfirmations (model (snd (refetchCallback receipt w)))
                     <=? S (confirmationsCount (model w)))%nat
                 then 1 else 0)
           /\ (requiredConfirmations (model (snd (refetchCallback receipt w))) = 3 ->
               (S (confirmationsCount (model w)) < 3)%nat ->
               count isResolve tr = 0)).
Proof.
  intros Hadd Hconf. split.
  - intros Ht. rewrite newHeadListener_refetches by assumption. split; reflexivity.
  - intros Hv. rewrite refetchCallback_valid by assumption. cbv zeta.
    pose proof (Hconf (addConfirmation receipt (model w))) as Hc.
    rewrite Hadd in Hc.
    destruct (isConfirmed (addConfirmation receipt (model w))).
    + rewrite handleSuccessState_on_workflow. simpl.
      split; [apply Hadd|]. eexists. split.
      * norm_log. rewrite Hadd. reflexivity.
      * rewrite <- Hc. repeat split.
        intros H3 Hlt. rewrite H3 in Hc. symmetry in Hc.
        apply Nat.leb_le in Hc. lia.
    + simpl. split; [apply Hadd|]. exists []. split.
      * rewrite Hadd. reflexivity.
      * rewrite <- Hc. repeat split.
Qed.

(** C10.  When the validated re-fetch makes [isConfirmed] true, the
    handler first emits "confirmation" with the count it has just reached
    and only then runs the success handling, so the log continues with the
    confirmation, the stop of the watcher, the resolve, the "receipt" event
    for the same receipt, the removal of the listeners and the callback, in
    this order. *)
Theorem C10_confirmation_before_receipt (receipt : Receipt) (w : World) :
  validate receipt = Valid ->
  isConfirmed (addConfirmation receipt (model w)) = true ->
  log (snd (refetchCallback receipt w)) =
  log w ++ [EmitConfirmation (confirmationsCount (addConfirmation receipt (model w))) receipt;
            Stop;
            Resolve (afterExecution receipt);
            EmitReceipt (afterExecution receipt);
            RemoveAllListeners;
            Callback None (Some (afterExecution receipt))].
Proof.
  intros Hv Hc. rewrite refetchCallback_valid by assumption. cbv zeta.
  rewrite Hc, handleSuccessState_on_workflow. simpl. norm_log. reflexivity.
Qed.

End Properties.

(** * The claims on concrete collaborators *)

(** C1 at a mined, valid receipt. *)
Lemma C1_witness :
  @mined (sample false JsUndefined) minedReceipt = true
  /\ sampleValidate minedReceipt = Valid
  /\ fst (@firstCheckCallback (sample false JsUndefined) ThisUndefined minedReceipt
            (started false JsUndefined (newModel 1 50 750))) =
     Throw (TypeError "Cannot read property 'transactionReceiptValidator' of undefined")
  /\ count isCallback
       (log (@workflow (sample false JsUndefined) txHash (newModel 1 50 750)
               [answers false JsUndefined (Fulfilled minedReceipt)])) = 0.
Proof.
  assert (Hm : @mined (sample false JsUndefined) minedReceipt = true) by reflexivity.
  assert (Hv : sampleValidate minedReceipt = Valid) by reflexivity.
  split; [exact Hm|]. split; [exact Hv|].
  destruct (@C1_first_check_success_is_lost (sample false JsUndefined) txHash
              (newModel 1 50 750) minedReceipt [] minedReceipt
              (started false JsUndefined (newModel 1 50 750)) Hm Hv)
    as (Hthrow & _ & _ & _ & Hcb).
  split; [rewrite Hthrow; reflexivity | exact Hcb].
Defined.

(** C3 as stated fails: when the provider rejects the request, the run
    holds no reject, no "error" emission, no callback, no removal of
    listeners and no stop of the watcher. *)
Lemma C3_counterexample :
  log (@workflow (sample false JsUndefined) txHash (newModel 1 50 750)
         [answers false JsUndefined (Rejected (Error "connection not open"))]) =
    [Send "eth_getTransactionReceipt" [txHash];
     UnhandledRejection (Error "connection not open")]
  /\ count isReject
       (log (@workflow (sample false JsUndefined) txHash (newModel 1 50 750)
               [answers false JsUndefined (Rejected (Error "connection not open"))])) = 0
  /\ count isEmitError
       (log (@workflow (sample false JsUndefined) txHash (newModel 1 50 750)
               [answers false JsUndefined (Rejected (Error "connection not open"))])) = 0
  /\ count isCallback
       (log (@workflow (sample false JsUndefined) txHash (newModel 1 50 750)
               [answers false JsUndefined (Rejected (Error "connection not open"))])) = 0
  /\ count isRemoveAllListeners
       (log (@workflow (sample false JsUndefined) txHash (newModel 1 50 750)
               [answers false JsUndefined (Rejected (Error "connection not open"))])) = 0
  /\ count isStop
       (log (@workflow (sample false JsUndefined) txHash (newModel 1 50 750)
               [answers false JsUndefined (Rejected (Error "connection not open"))])) = 0.
Proof.
  repeat split; reflexivity.
Qed.

(** C3 (amended) at a reverted receipt on a re-fetch and at the head
    notification that passes a threshold of two blocks. *)
Lemma C3_witness :
  sampleValidate revertedReceipt = Invalid (Error "Transaction has been reverted by the EVM")
  /\ specIsTimeoutTimeExceeded false
       (incrementTimeoutCounter (model (waiting false JsUndefined (newModel 3 2 30) 2))) = true
  /\ (exists tr,
        log (snd (@refetchCallback (sample false JsUndefined) revertedReceipt
                    (waiting false JsUndefined (newModel 3 2 30) 1))) =
          log (waiting false JsUndefined (newModel 3 2 30) 1) ++ tr
        /\ count isReject tr = 1 /\ count isEmitError tr = 1 /\ count isCallback tr = 1)
  /\ (exists tr,
        log (snd (@newHeadListener (sample false JsUndefined) txHash
                    (waiting false JsUndefined (newModel 3 2 30) 2))) =
          log (waiting false JsUndefined (newModel 3 2 30) 2) ++ tr
        /\ In Stop tr /\ count isReject tr = 1).
Proof.
  assert (Hv : sampleValidate revertedReceipt =
               Invalid (Error "Transaction has been reverted by the EVM")) by reflexivity.
  assert (Ht : specIsTimeoutTimeExceeded false
                 (incrementTimeoutCounter
                    (model (waiting false JsUndefined (newModel 3 2 30) 2))) = true)
    by reflexivity.
  split; [exact Hv|]. split; [exact Ht|].
  split.
  - destruct (@C3_failure_kinds (sample false JsUndefined) txHash (newModel 3 2 30)
                (Error "Transaction has been reverted by the EVM") revertedReceipt
                (waiting false JsUndefined (newModel 3 2 30) 1))
      as (_ & Hfail & _).
    destruct (Hfail Hv) as (tr & Hlog & Hr & _ & He & _ & _ & Hc & _).
    exists tr. repeat split; assumption.
  - destruct (@C3_failure_kinds (sample false JsUndefined) txHash (newModel 3 2 30)
                (Error "Transaction has been reverted by the EVM") revertedReceipt
                (waiting false JsUndefined (newModel 3 2 30) 2))
      as (_ & _ & Htime).
    destruct (Htime Ht) as (_ & tr & Hlog & Hs & Hr & _).
    exists tr. repeat split; assumption.
Defined.

(** C4 as stated fails: the transport error is in no reject and in no
    callback; it is left as an unhandled rejection. *)
Lemma C4_counterexample :
  In (UnhandledRejection (Error "Invalid JSON RPC response"))
     (log (@workflow (sample true JsCallable) txHash (newModel 3 50 750)
             [answers true JsCallable (Rejected (Error "Invalid JSON RPC response"));
              NewHead; NewHead]))
  /\ count isUnhandledRejection
       (log (@workflow (sample true JsCallable) txHash (newModel 3 50 750)
               [answers true JsCallable (Rejected (Error "Invalid JSON RPC response"));
                NewHead; NewHead])) = 1
  /\ count isReject
       (log (@workflow (sample true JsCallable) txHash (newModel 3 50 750)
               [answers true JsCallable (Rejected (Error "Invalid JSON RPC response"));
                NewHead; NewHead])) = 0
  /\ count isCallback
       (log (@workflow (sample true JsCallable) txHash (newModel 3 50 750)
               [answers true JsCallable (Rejected (Error "Invalid JSON RPC response"));
                NewHead; NewHead])) = 0.
Proof.
  repeat split; try reflexivity. simpl. right. left. reflexivity.
Qed.

(** C4 (amended) at a reverted receipt on a re-fetch. *)
Lemma C4_witness :
  sampleValidate revertedReceipt = Invalid (Error "Transaction has been reverted by the EVM")
  /\ fst (@refetchCallback (sample false JsUndefined) revertedReceipt
            (waiting false JsUndefined (newModel 3 50 750) 1)) = Normal tt
  /\ In (Callback (Some (Error "Transaction has been reverted by the EVM")) None)
        (log (snd (@refetchCallback (sample false JsUndefined) revertedReceipt
                     (waiting false JsUndefined (newModel 3 50 750) 1)))).
Proof.
  assert (Hv : sampleValidate revertedReceipt =
               Invalid (Error "Transaction has been reverted by the EVM")) by reflexivity.
  split; [exact Hv|].
  destruct (@C4_what_is_surfaced (sample false JsUndefined) txHash (newModel 3 50 750)
              (Error "connection not open") revertedReceipt
              (waiting false JsUndefined (newModel 3 50 750) 1))
    as (_ & Hret & Hsurf & _).
  split; [exact Hret|].
  destruct (Hsurf _ Hv) as (_ & Hcb). exact Hcb.
Defined.

(** C6 at a mined receipt of a reverted transaction. *)
Lemma C6_witness :
  @mined (sample false JsUndefined) revertedReceipt = true
  /\ sampleValidate revertedReceipt = Invalid (Error "Transaction has been reverted by the EVM")
  /\ count isReject
       (log (@workflow (sample false JsUndefined) txHash (newModel 1 50 750)
               [answers false JsUndefined (Fulfilled revertedReceipt)])) = 0
  /\ count isCallback
       (log (@workflow (sample false JsUndefined) txHash (newModel 1 50 750)
               [answers false JsUndefined (Fulfilled revertedReceipt)])) = 0.
Proof.
  assert (Hm : @mined (sample false JsUndefined) revertedReceipt = true) by reflexivity.
  assert (Hv : sampleValidate revertedReceipt =
               Invalid (Error "Transaction has been reverted by the EVM")) by reflexivity.
  split; [exact Hm|]. split; [exact Hv|].
  destruct (@C6_first_check_failure_is_lost (sample false JsUndefined) txHash
              (newModel 1 50 750) revertedReceipt [] revertedReceipt
              (Error "Transaction has been reverted by the EVM")
              (started false JsUndefined (newModel 1 50 750)) Hm Hv)
    as (_ & _ & Hr & _ & Hcb).
  split; assumption.
Defined.

(** C7 as stated fails: after one confirmation out of three, the next head
    notification still adds one to [timeoutCounter]. *)
Lemma C7_counterexample :
  confirmationsCount
    (model (deliverAll txHash [got false JsUndefined Refetch minedReceipt]
              (waiting false JsUndefined (newModel 3 50 750) 1))) = 1
  /\ timeoutCounter
       (model (deliverAll txHash [got false JsUndefined Refetch minedReceipt]
                 (waiting false JsUndefined (newModel 3 50 750) 1))) = 1
  /\ timeoutCounter
       (model (deliverAll txHash [got false JsUndefined Refetch minedReceipt; Head]
                 (waiting false JsUndefined (newModel 3 50 750) 1))) = 2.
Proof.
  repeat split; reflexivity.
Qed.

(** C8 at the third head notification with a threshold of two blocks, and
    at the second with a polling limit of one. *)
Lemma C8_witness :
  specIsTimeoutTimeExceeded false
    (incrementTimeoutCounter (model (waiting false JsCallable (newModel 3 2 30) 2))) = true
  /\ In (Reject (Error "Transaction was not mined within 2 blocks, please make sure your transaction was properly sent. Be aware that it might still be mined!"))
        (log (snd (@newHeadListener (sample false JsCallable) txHash
                     (waiting false JsCallable (newModel 3 2 30) 2))))
  /\ specIsTimeoutTimeExceeded true
       (incrementTimeoutCounter (model (waiting true JsUndefined (newModel 3 2 1) 1))) = true
  /\ In (Reject (Error "Transaction was not mined within1 seconds, please make sure your transaction was properly sent. Be aware that it might still be mined!"))
        (log (snd (@newHeadListener (sample true JsUndefined) txHash
                     (waiting true JsUndefined (newModel 3 2 1) 1)))).
Proof.
  assert (Hb : specIsTimeoutTimeExceeded false
                 (incrementTimeoutCounter
                    (model (waiting false JsCallable (newModel 3 2 30) 2))) = true)
    by reflexivity.
  assert (Hs : specIsTimeoutTimeExceeded true
                 (incrementTimeoutCounter
                    (model (waiting true JsUndefined (newModel 3 2 1) 1))) = true)
    by reflexivity.
  split; [exact Hb|]. split; [|split; [exact Hs|]].
  - destruct (@C8_timeout_error_by_mode (sample false JsCallable) txHash
                (waiting false JsCallable (newModel 3 2 30) 2) Hb)
      as (_ & Hmsg & _ & _ & tr & Hlog & _).
    rewrite Hlog, (Hmsg eq_refl). apply in_or_app. right. right. left. reflexivity.
  - destruct (@C8_timeout_error_by_mode (sample true JsUndefined) txHash
                (waiting true JsUndefined (newModel 3 2 1) 1) Hs)
      as (_ & _ & Hmsg & _ & tr & Hlog & _).
    rewrite Hlog, (Hmsg eq_refl). apply in_or_app. right. right. left. reflexivity.
Defined.

(** X9 with three confirmations required: the second head notification
    sends one request, and the second valid re-fetch brings the count to 2
    without resolving. *)
Lemma X9_witness :
  (forall (r : option SampleReceipt) m,
      confirmationsCount (specAddConfirmation r m) = S (confirmationsCount m))
  /\ (forall m : TransactionConfirmationModel SampleReceipt,
        specIsConfirmed m = (requiredConfirmations m <=? confirmationsCount m)%nat)
  /\ specIsTimeoutTimeExceeded false
       (incrementTimeoutCounter (model (waiting false JsUndefined (newModel 3 50 750) 1))) = false
  /\ sampleValidate minedReceipt = Valid
  /\ log (snd (@newHeadListener (sample false JsUndefined) txHash
                 (waiting false JsUndefined (newModel 3 50 750) 1))) =
       log (waiting false JsUndefined (newModel 3 50 750) 1)
       ++ [Send "eth_getTransactionReceipt" [txHash]]
  /\ confirmationsCount
       (model (snd (@refetchCallback (sample false JsUndefined) minedReceipt
                      (deliverAll txHash [got false JsUndefined Refetch minedReceipt]
                         (waiting false JsUndefined (newModel 3 50 750) 2))))) = 2
  /\ count isResolve
       (log (snd (@refetchCallback (sample false JsUndefined) minedReceipt
                    (deliverAll txHash [got false JsUndefined Refetch minedReceipt]
                       (waiting false JsUndefined (newModel 3 50 750) 2))))) = 0.
Proof.
  assert (Hadd : forall (r : option SampleReceipt) m,
             confirmationsCount (specAddConfirmation r m) = S (confirmationsCount m))
    by (intros; reflexivity).
  assert (Hconf : forall m : TransactionConfirmationModel SampleReceipt,
             specIsConfirmed m = (requiredConfirmations m <=? confirmationsCount m)%nat)
    by (intros; reflexivity).
  assert (Ht : specIsTimeoutTimeExceeded false
                 (incrementTimeoutCounter
                    (model (waiting false JsUndefined (newModel 3 50 750) 1))) = false)
    by reflexivity.
  assert (Hv : sampleValidate minedReceipt = Valid) by reflexivity.
  split; [exact Hadd|]. split; [exact Hconf|]. split; [exact Ht|]. split; [exact Hv|].
  split.
  - destruct (@X9_refetch_and_confirmations (sample false JsUndefined) txHash minedReceipt
                (waiting false JsUndefined (newModel 3 50 750) 1) Hadd Hconf)
      as (Hhead & _).
    destruct (Hhead Ht) as (Hlog & _). exact Hlog.
  - destruct (@X9_refetch_and_confirmations (sample false JsUndefined) txHash minedReceipt
                (deliverAll txHash [got false JsUndefined Refetch minedReceipt]
                   (waiting false JsUndefined (newModel 3 50 750) 2)) Hadd Hconf)
      as (_ & Hfetch).
    destruct (Hfetch Hv) as (Hcount & tr & Hlog & _ & _ & Hnot).
    split; [exact Hcount|].
    assert (Hlt : (S (confirmationsCount
                        (model (deliverAll txHash [got false JsUndefined Refetch minedReceipt]
                                  (waiting false JsUndefined (newModel 3 50 750) 2)))) < 3)%nat)
      by (simpl; lia).
    rewrite Hlog, count_app, count_cons_false by reflexivity.
    rewrite (Hnot eq_refl Hlt). reflexivity.
Defined.

(** C10 with one confirmation required: the first valid re-fetch emits
    "confirmation" with count 1 and then "receipt". *)
Lemma C10_witness :
  sampleValidate minedReceipt = Valid
  /\ specIsConfirmed
       (specAddConfirmation minedReceipt
          (model (waiting false JsUndefined (newModel 1 50 750) 1))) = true
  /\ log (snd (@refetchCallback (sample false JsUndefined) minedReceipt
                 (waiting false JsUndefined (newModel 1 50 750) 1))) =
     [Send "eth_getTransactionReceipt" [txHash]; Watch; OnNewHead;
      Send "eth_getTransactionReceipt" [txHash];
      @EmitConfirmation (sample false JsUndefined) 1 minedReceipt; Stop;
      @Resolve (sample false JsUndefined) minedReceipt;
      @EmitReceipt (sample false JsUndefined) minedReceipt; RemoveAllListeners;
      @Callback (sample false JsUndefined) None (Some minedReceipt)].
Proof.
  assert (Hv : sampleValidate minedReceipt = Valid) by reflexivity.
  assert (Hc : specIsConfirmed
                 (specAddConfirmation minedReceipt
                    (model (waiting false JsUndefined (newModel 1 50 750) 1))) = true)
    by reflexivity.
  split; [exact Hv|]. split; [exact Hc|].
  rewrite (@C10_confirmation_before_receipt (sample false JsUndefined) minedReceipt
             (waiting false JsUndefined (newModel 1 50 750) 1) Hv Hc).
  reflexivity.
Defined.

(** * Further properties of the workflow *)

Section Further.

Context {C : Collaborators}.

(** ** Deliveries, one at a time *)

Lemma deliverAll_cons (transactionHash : string) (d : Delivery) (ds : list Delivery)
  (w : World) :
  deliverAll transactionHash (d :: ds) w =
  deliverAll transactionHash ds (deliver transactionHash d w).
Proof.
  reflexivity.
Qed.

Lemma deliver_first_check_unmined (transactionHash : string) (receipt : Receipt)
  (w : World) :
  mined receipt = false ->
  deliver transactionHash (Got FirstCheck receipt) w =
  mkWorld (model w) true true (pending w) (log w ++ [Watch; OnNewHead]).
Proof.
  intros Hm. unfold deliver, settleReceipt, thenP, handlerOf, bind.
  rewrite firstCheckCallback_subscribes by assumption. reflexivity.
Qed.

Lemma deliver_refetch_invalid (transactionHash : string) (receipt : Receipt)
  (e : JsError) (w : World) :
  validate receipt = Invalid e ->
  deliver transactionHash (Got Refetch receipt) w =
  mkWorld (model w) (watching w) (listening w) (pending w)
    (log w ++ [Reject e; EmitError e (Some receipt); RemoveAllListeners;
               Callback (Some e) None]).
Proof.
  intros Hv. unfold deliver, settleReceipt, thenP, handlerOf, bind.
  rewrite (refetchCallback_invalid receipt e) by assumption. reflexivity.
Qed.

Lemma deliver_refetch_confirmed (transactionHash : string) (receipt : Receipt)
  (w : World) :
  validate receipt = Valid ->
  isConfirmed (addConfirmation receipt (model w)) = true ->
  deliver transactionHash (Got Refetch receipt) w =
  mkWorld (addConfirmation receipt (model w)) false (listening w) (pending w)
    (log w ++ [EmitConfirmation (confirmationsCount (addConfirmation receipt (model w))) receipt;
               Stop; Resolve (afterExecution receipt);
               EmitReceipt (afterExecution receipt); RemoveAllListeners;
               Callback None (Some (afterExecution receipt))]).
Proof.
  intros Hv Hc. unfold deliver, settleReceipt, thenP, handlerOf, bind.
  rewrite refetchCallback_valid by assumption. cbv zeta.
  rewrite Hc, handleSuccessState_on_workflow. simpl.
  rewrite <- app_assoc. reflexivity.
Qed.

Lemma notify_refetches (transactionHash : string) (w : World) :
  isTimeoutTimeExceeded (incrementTimeoutCounter (model w)) = false ->
  notify transactionHash w =
  mkWorld (incrementTimeoutCounter (model w)) (watching w) (listening w)
    (pending w ++ [Refetch])
    (log w ++ [Send "eth_getTransactionReceipt" [transactionHash]]).
Proof.
  intros Ht. unfold notify. rewrite newHeadListener_refetches by assumption.
  reflexivity.
Qed.

(** ** A whole run *)

(** What a run can look like: the request is in flight, or it has settled
    into a rejection nobody handles; the listener is never registered. *)
Definition quiet (transactionHash : string) (m : Model) (w : World) : Prop :=
  listening w = false
  /\ model w = m
  /\ ((pending w = [FirstCheck]
       /\ log w = [Send "eth_getTransactionReceipt" [transactionHash]])
      \/ (pending w = []
          /\ exists e,
               log w = [Send "eth_getTransactionReceipt" [transactionHash];
                        UnhandledRejection e])).

Lemma step_quiet (transactionHash : string) (m : Model) (ev : External) (w : World) :
  quiet transactionHash m w -> quiet transactionHash m (step transactionHash ev w).
Proof.
  intros (Hl & Hm & Hq). destruct ev as [response|].
  - simpl. destruct Hq as [[Hp Hlog]|[Hp Hlog]]; rewrite Hp; [|repeat split; auto].
    destruct response as [raw|e].
    + rewrite settle_fulfilled. simpl. split; [exact Hl|]. split; [exact Hm|]. right.
      split; [reflexivity|]. rewrite Hlog. eexists. reflexivity.
    + rewrite settle_rejected. simpl. split; [exact Hl|]. split; [exact Hm|]. right.
      split; [reflexivity|]. rewrite Hlog. eexists. reflexivity.
  - simpl. rewrite Hl. simpl. repeat split; auto.
Qed.

Lemma run_quiet (transactionHash : string) (m : Model) (evs : list External) (w : World) :
  quiet transactionHash m w -> quiet transactionHash m (run transactionHash evs w).
Proof.
  revert w. induction evs as [|ev evs IH]; intros w Hq.
  - exact Hq.
  - rewrite run_cons. apply IH, step_quiet, Hq.
Qed.

(** X1.  Whatever the provider answers and whenever heads arrive, a whole
    run of [execute] sends exactly one request and then at most leaves one
    unhandled rejection: the result object is never resolved or rejected,
    no event is emitted, the callback is never called, the listener for head
    notifications is never registered and the confirmation model is left as
    it was. *)
Theorem X1_whole_run_settles_nothing (transactionHash : string) (m : Model)
  (evs : list External) :
  (log (workflow transactionHash m evs) =
     [Send "eth_getTransactionReceipt" [transactionHash]]
   \/ exists e,
        log (workflow transactionHash m evs) =
          [Send "eth_getTransactionReceipt" [transactionHash]; UnhandledRejection e])
  /\ count isSend (log (workflow transactionHash m evs)) = 1
  /\ count isResolve (log (workflow transactionHash m evs)) = 0
  /\ count isReject (log (workflow transactionHash m evs)) = 0
  /\ count isCallback (log (workflow transactionHash m evs)) = 0
  /\ listening (workflow transactionHash m evs) = false
  /\ model (workflow transactionHash m evs) = m.
Proof.
  assert (Hq : quiet transactionHash m (workflow transactionHash m evs)).
  { unfold workflow. apply run_quiet. rewrite execute_on_initial.
    split; [reflexivity|]. split; [reflexivity|]. left. split; reflexivity. }
  destruct Hq as (Hl & Hm & [[_ Hlog]|[_ [e Hlog]]]); rewrite Hlog.
  - split; [left; reflexivity|]. repeat split; assumption.
  - split; [right; exists e; reflexivity|]. repeat split; assumption.
Qed.

(** ** The first check and the re-fetch on a receipt that is not mined *)

(** X2.  The handler of the first check takes [null], a receipt without a
    block hash and a receipt whose block hash is the empty string as "not
    mined": with or without a receiver it starts the head watcher and
    registers the listener, and it neither validates nor settles. *)
Theorem X2_first_check_unmined_subscribes (this : This) (receipt : Receipt) (w : World) :
  receipt = None
  \/ (exists r, receipt = Some r /\ (blockHash r = None \/ blockHash r = Some "")) ->
  firstCheckCallback this receipt w =
  (Normal tt, mkWorld (model w) true true (pending w) (log w ++ [Watch; OnNewHead])).
Proof.
  intros H. apply firstCheckCallback_subscribes.
  destruct H as [H|[r [Hr [Hb|Hb]]]]; subst; simpl; try rewrite Hb; reflexivity.
Qed.

(** X3.  The re-fetch handler does not look at the block hash.  For one and
    the same receipt that is not mined and that the validator refuses: the
    first check subscribes without validating, and after the next head
    notification the re-fetch validates it and ends in the failure handling
    of lines 102-105, with the watcher still running. *)
Theorem X3_unmined_receipt_fails_on_refetch (transactionHash : string)
  (receipt : Receipt) (e : JsError) (w : World) :
  mined receipt = false ->
  validate receipt = Invalid e ->
  isTimeoutTimeExceeded (incrementTimeoutCounter (model w)) = false ->
  log (deliverAll transactionHash
         [Got FirstCheck receipt; Head; Got Refetch receipt] w) =
    log w ++ [Watch; OnNewHead;
              Send "eth_getTransactionReceipt" [transactionHash];
              Reject e; EmitError e (Some receipt); RemoveAllListeners;
              Callback (Some e) None]
  /\ watching (deliverAll transactionHash
                 [Got FirstCheck receipt; Head; Got Refetch receipt] w) = true.
Proof.
  intros Hm Hv Ht.
  rewrite !deliverAll_cons.
  change (deliverAll transactionHash [] ?x) with x.
  rewrite (deliver_refetch_invalid transactionHash receipt e) by assumption.
  rewrite deliver_first_check_unmined by assumption.
  change (deliver transactionHash Head ?x) with (notify transactionHash x).
  rewrite notify_refetches by exact Ht.
  simpl. repeat rewrite <- app_assoc. split; reflexivity.
Qed.

(** ** Handlers that run more than once *)

(** X4.  The failure handling of a re-fetch (lines 102-105) leaves the
    head watcher as it was: after any number of refused receipts the
    watcher has not been stopped, every one of them has rejected and called
    the callback once more, and a watcher that was running still hands the
    next head notification to the listener. *)
Theorem X4_refetch_failure_keeps_the_watcher (transactionHash : string)
  (receipt : Receipt) (e : JsError) (w : World) (n : nat) :
  validate receipt = Invalid e ->
  watching (deliverAll transactionHash (repeat (Got Refetch receipt) n) w) = watching w
  /\ listening (deliverAll transactionHash (repeat (Got Refetch receipt) n) w) = listening w
  /\ count isStop (log (deliverAll transactionHash (repeat (Got Refetch receipt) n) w))
     = count isStop (log w)
  /\ count isReject (log (deliverAll transactionHash (repeat (Got Refetch receipt) n) w))
     = count isReject (log w) + n
  /\ count isCallback (log (deliverAll transactionHash (repeat (Got Refetch receipt) n) w))
     = count isCallback (log w) + n
  /\ (listening w && watching w = true ->
      step transactionHash NewHead
        (deliverAll transactionHash (repeat (Got Refetch receipt) n) w)
      = notify transactionHash
          (deliverAll transactionHash (repeat (Got Refetch receipt) n) w)).
Proof.
  intros Hv.
  assert (H : watching (deliverAll transactionHash (repeat (Got Refetch receipt) n) w)
              = watching w
              /\ listening (deliverAll transactionHash (repeat (Got Refetch receipt) n) w)
                 = listening w
              /\ count isStop
                   (log (deliverAll transactionHash (repeat (Got Refetch receipt) n) w))
                 = count isStop (log w)
              /\ count isReject
                   (log (deliverAll transactionHash (repeat (Got Refetch receipt) n) w))
                 = count isReject (log w) + n
              /\ count isCallback
                   (log (deliverAll transactionHash (repeat (Got Refetch receipt) n) w))
                 = count isCallback (log w) + n).
  { revert w. induction n as [|n IH]; intros w.
    - simpl. repeat split; lia.
    - simpl repeat. rewrite deliverAll_cons.
      rewrite (deliver_refetch_invalid transactionHash receipt e) by assumption.
      destruct (IH (mkWorld (model w) (watching w) (listening w) (pending w)
                      (log w ++ [Reject e; EmitError e (Some receipt);
                                 RemoveAllListeners; Callback (Some e) None])))
        as (Hw & Hl & Hs & Hr & Hc).
      rewrite Hw, Hl, Hs, Hr, Hc. simpl. rewrite !count_app.
      repeat split; unfold count; simpl; lia. }
  destruct H as (Hw & Hl & Hs & Hr & Hc).
  repeat split; try assumption.
  intros Hon. simpl. rewrite Hw, Hl, Hon. reflexivity.
Qed.

(** X5.  On a head notification that finds the threshold exceeded, what
    happens after the reject depends on what [promiEvent.reject] returns.
    If it returns [undefined], line 170 throws: the watcher is stopped, the
    result object rejected, and the TypeError escapes from the listener with
    no "error" event, no removal of listeners and no callback.  If it
    returns something callable, the "error" event (without a receipt), the
    removal of the listeners and callback(error, null) follow. *)
Theorem X5_timeout_after_the_reject (transactionHash : string) (w : World) :
  isTimeoutTimeExceeded (incrementTimeoutCounter (model w)) = true ->
  (rejectResult = JsUndefined ->
   notify transactionHash w =
   mkWorld (incrementTimeoutCounter (model w)) false (listening w) (pending w)
     (log w ++ [Stop; Reject (timeoutError (incrementTimeoutCounter (model w)));
                UncaughtException (TypeError "Cannot read property 'apply' of undefined")]))
  /\ (rejectResult = JsCallable ->
      notify transactionHash w =
      mkWorld (incrementTimeoutCounter (model w)) false (listening w) (pending w)
        (log w ++ [Stop; Reject (timeoutError (incrementTimeoutCounter (model w)));
                   EmitError (timeoutError (incrementTimeoutCounter (model w))) None;
                   RemoveAllListeners;
                   Callback (Some (timeoutError (incrementTimeoutCounter (model w)))) None])).
Proof.
  intros Ht. unfold notify. rewrite newHeadListener_times_out by assumption.
  rewrite handleErrorState_on_workflow.
  split; intros Hr; rewrite Hr; simpl.
  - unfold tell. simpl. rewrite <- app_assoc. reflexivity.
  - reflexivity.
Qed.

(** X6.  The handler of a re-fetch has no guard of its own either.  If
    [isConfirmed] stays true once it is true, then every validated receipt
    handled after the required depth is reached runs the success handling
    again: [n] such receipts add [n] "confirmation" events, [n] resolves,
    [n] "receipt" events and [n] calls of the callback. *)
Theorem X6_valid_refetch_after_depth_repeats_success (transactionHash : string)
  (receipt : Receipt) (w : World) (n : nat) :
  validate receipt = Valid ->
  (forall m, isConfirmed m = true -> isConfirmed (addConfirmation receipt m) = true) ->
  isConfirmed (model w) = true ->
  count isEmitConfirmation
    (log (deliverAll transactionHash (repeat (Got Refetch receipt) n) w))
  = count isEmitConfirmation (log w) + n
  /\ count isResolve (log (deliverAll transactionHash (repeat (Got Refetch receipt) n) w))
     = count isResolve (log w) + n
  /\ count isEmitReceipt (log (deliverAll transactionHash (repeat (Got Refetch receipt) n) w))
     = count isEmitReceipt (log w) + n
  /\ count isCallback (log (deliverAll transactionHash (repeat (Got Refetch receipt) n) w))
     = count isCallback (log w) + n.
Proof.
  intros Hv Hmono. revert w. induction n as [|n IH]; intros w Hc.
  - simpl. repeat split; lia.
  - simpl repeat. rewrite deliverAll_cons.
    rewrite deliver_refetch_confirmed by auto.
    match goal with
    | |- context [deliverAll _ _ ?x] =>
        destruct (IH x) as (H1 & H2 & H3 & H4); [simpl; auto|]
    end.
    rewrite H1, H2, H3, H4. simpl. rewrite !count_app.
    repeat split; unfold count; simpl; lia.
Qed.

(** X7.  The listener does not wait for a fetch in flight: [n] head
    notifications below the threshold send [n] requests, leave [n]
    re-fetches in flight and raise [timeoutCounter] by [n]. *)
Theorem X7_heads_do_not_wait_for_the_fetch (transactionHash : string) (w : World)
  (n : nat) :
  (forall k, (k < n)%nat ->
     isTimeoutTimeExceeded (Nat.iter (S k) incrementTimeoutCounter (model w)) = false) ->
  pending (deliverAll transactionHash (repeat Head n) w) = pending w ++ repeat Refetch n
  /\ count isSend (log (deliverAll transactionHash (repeat Head n) w))
     = count isSend (log w) + n
  /\ timeoutCounter (model (deliverAll transactionHash (repeat Head n) w))
     = timeoutCounter (model w) + n.
Proof.
  revert w. induction n as [|n IH]; intros w Hbelow.
  - simpl. rewrite app_nil_r. repeat split; lia.
  - simpl repeat. rewrite deliverAll_cons.
    change (deliver transactionHash Head w) with (notify transactionHash w).
    rewrite notify_refetches by (apply (Hbelow 0); lia).
    match goal with
    | |- context [deliverAll _ _ ?x] => destruct (IH x) as (H1 & H2 & H3)
    end.
    + intros k Hk. simpl model. rewrite <- Nat.iter_succ_r. apply Hbelow. lia.
    + rewrite H1, H2, H3. simpl. rewrite count_app, <- app_assoc.
      repeat split; unfold count; simpl; lia.
Qed.

(** ** The text of the timeout errors *)

(** X8.  Both timeout texts start with the same 32 characters.  In the
    text for a watcher that does not poll a space follows and then the
    number; in the text for a polling watcher the number follows
    immediately, whatever the number is. *)
Theorem X8_timeout_texts (n : nat) :
  substring 0 32 (blocksMessage n) = "Transaction was not mined within"
  /\ substring 0 32 (secondsMessage n) = "Transaction was not mined within"
  /\ get 32 (blocksMessage n) = Some Ascii.Space
  /\ exists digit,
       get 32 (secondsMessage n) = Some digit
       /\ (48 <= Ascii.nat_of_ascii digit <= 57)%nat.
Proof.
  unfold blocksMessage, secondsMessage, decimal.
  destruct (Nat.to_uint n); simpl;
    (split; [reflexivity|]); (split; [reflexivity|]); (split; [reflexivity|]);
    eexists; (split; [reflexivity|]); split; apply Nat.leb_le; reflexivity.
Qed.

End Further.

(** * The workflow within what the collaborators can do *)

Section WithinContract.

Context {C : Collaborators}.

(** What can reach the handlers when every collaborator keeps to its
    contract and the fetch delivers a formatted receipt: a head notification
    of the watcher, which reaches the listener only while the watcher runs
    and the listener is registered ([step]), and a formatted receipt, which
    answers the oldest request in flight and is handed to the handler
    attached to it. *)
Inductive Arrival : Type :=
| HeadArrives
| ReceiptArrives (receipt : Receipt).

Definition arrive (transactionHash : string) (a : Arrival) (w : World) : World :=
  match a with
  | HeadArrives => step transactionHash NewHead w
  | ReceiptArrives receipt =>
      match pending w with
      | [] => w
      | k :: rest => snd (settleReceipt k (Fulfilled receipt) (setPending rest w))
      end
  end.

Definition arriveAll (transactionHash : string) (arrivals : list Arrival) (w : World)
  : World :=
  fold_left (fun w a => arrive transactionHash a w) arrivals w.

Lemma arriveAll_app (transactionHash : string) (l1 l2 : list Arrival) (w : World) :
  arriveAll transactionHash (l1 ++ l2) w =
  arriveAll transactionHash l2 (arriveAll transactionHash l1 w).
Proof.
  apply fold_left_app.
Qed.

Lemma arriveAll_cons (transactionHash : string) (a : Arrival) (l : list Arrival)
  (w : World) :
  arriveAll transactionHash (a :: l) w =
  arriveAll transactionHash l (arrive transactionHash a w).
Proof.
  reflexivity.
Qed.

Lemma arrive_head_running (transactionHash : string) (w : World) :
  listening w = true -> watching w = true ->
  arrive transactionHash HeadArrives w = notify transactionHash w.
Proof.
  intros Hl Hw. simpl. rewrite Hl, Hw. reflexivity.
Qed.

Lemma arrive_receipt_answers (transactionHash : string) (receipt : Receipt)
  (k : Continuation) (rest : list Continuation) (w : World) :
  pending w = k :: rest ->
  arrive transactionHash (ReceiptArrives receipt) w =
  deliver transactionHash (Got k receipt) (setPending rest w).
Proof.
  intros Hp. simpl. rewrite Hp. reflexivity.
Qed.

(** One head notification and the refused receipt that answers its
    request, in a world where the watcher runs and nothing is in flight. *)
Lemma arrive_head_then_refused (transactionHash : string) (receipt : Receipt)
  (e : JsError) (w : World) :
  validate receipt = Invalid e ->
  listening w = true ->
  watching w = true ->
  pending w = [] ->
  isTimeoutTimeExceeded (incrementTimeoutCounter (model w)) = false ->
  arriveAll transactionHash [HeadArrives; ReceiptArrives receipt] w =
  mkWorld (incrementTimeoutCounter (model w)) true true []
    (log w ++ [Send "eth_getTransactionReceipt" [transactionHash];
               Reject e; EmitError e (Some receipt); RemoveAllListeners;
               Callback (Some e) None]).
Proof.
  intros Hv Hl Hw Hp Ht. rewrite !arriveAll_cons.
  change (arriveAll transactionHash [] ?x) with x.
  rewrite arrive_head_running by assumption.
  rewrite notify_refetches by assumption. rewrite Hp.
  rewrite (arrive_receipt_answers transactionHash receipt Refetch []) by reflexivity.
  rewrite (deliver_refetch_invalid transactionHash receipt e) by assumption.
  simpl. rewrite <- app_assoc, Hl, Hw. reflexivity.
Qed.

(** C2.  A refused re-fetch is a terminal state by the claim, yet lines
    102-105 do not stop the head watcher.  In a world where the watcher
    runs and nothing is in flight, a head notification and a refused
    receipt reject, emit "error" and call the callback, and leave the
    watcher running; the next head notification is then delivered, and a
    second refused receipt emits "error" and calls the callback a second
    time.  [handleErrorState], given the same error in the same world,
    stops the watcher, and then no head notification arrives. *)
Theorem C2_refused_refetch_is_not_terminal (transactionHash : string)
  (receipt : Receipt) (e : JsError) (w : World) :
  validate receipt = Invalid e ->
  listening w = true ->
  watching w = true ->
  pending w = [] ->
  isTimeoutTimeExceeded (incrementTimeoutCounter (model w)) = false ->
  isTimeoutTimeExceeded (incrementTimeoutCounter (incrementTimeoutCounter (model w))) = false ->
  log (arriveAll transactionHash [HeadArrives; ReceiptArrives receipt] w) =
    log w ++ [Send "eth_getTransactionReceipt" [transactionHash];
              Reject e; EmitError e (Some receipt); RemoveAllListeners;
              Callback (Some e) None]
  /\ watching (arriveAll transactionHash [HeadArrives; ReceiptArrives receipt] w) = true
  /\ log (arriveAll transactionHash
            [HeadArrives; ReceiptArrives receipt; HeadArrives; ReceiptArrives receipt] w) =
       log (arriveAll transactionHash [HeadArrives; ReceiptArrives receipt] w)
       ++ [Send "eth_getTransactionReceipt" [transactionHash];
           Reject e; EmitError e (Some receipt); RemoveAllListeners;
           Callback (Some e) None]
  /\ count isEmitError
       (log (arriveAll transactionHash
               [HeadArrives; ReceiptArrives receipt; HeadArrives; ReceiptArrives receipt] w))
     = count isEmitError (log w) + 2
  /\ count isCallback
       (log (arriveAll transactionHash
               [HeadArrives; ReceiptArrives receipt; HeadArrives; ReceiptArrives receipt] w))
     = count isCallback (log w) + 2
  /\ watching (snd (handleErrorState ThisWorkflow e w)) = false
  /\ arrive transactionHash HeadArrives (snd (handleErrorState ThisWorkflow e w))
     = snd (handleErrorState ThisWorkflow e w).
Proof.
  intros Hv Hl Hw Hp Ht1 Ht2.
  change [HeadArrives; ReceiptArrives receipt; HeadArrives; ReceiptArrives receipt]
    with ([HeadArrives; ReceiptArrives receipt] ++ [HeadArrives; ReceiptArrives receipt]).
  rewrite arriveAll_app.
  rewrite (arrive_head_then_refused transactionHash receipt e w) by assumption.
  rewrite (arrive_head_then_refused transactionHash receipt e) by (simpl; auto).
  simpl. split; [reflexivity|]. split; [reflexivity|]. split; [reflexivity|].
  split; [rewrite !count_app; unfold count; simpl; lia|].
  split; [rewrite !count_app; unfold count; simpl; lia|].
  pose proof (handleErrorState_stops e w) as Hstop.
  split; [exact Hstop|]. rewrite Hstop, andb_false_r. reflexivity.
Qed.

(** C9.  A transaction that is not mined on the first check: the claim
    expects every later head notification to send one request for the
    receipt and every validated receipt to count as a confirmation.  In a
    whole run, whatever the node answers to the first request ([null]
    included) and whatever follows, the handler of line 133 throws, the
    handler of the first check never runs and the listener is never
    registered: the log holds the first request and the unhandled
    TypeError, no further request is sent, no "confirmation" is emitted,
    nothing is resolved, and both counters of the model stay as they
    were. *)
Theorem C9_unmined_first_check_never_listens (transactionHash : string) (m : Model)
  (raw : Raw) (evs : list External) :
  log (workflow transactionHash m (Response (Fulfilled raw) :: evs)) =
    [Send "eth_getTransactionReceipt" [transactionHash];
     UnhandledRejection (TypeError "Cannot read property 'formatters' of undefined")]
  /\ count isSend (log (workflow transactionHash m (Response (Fulfilled raw) :: evs))) = 1
  /\ count isEmitConfirmation
       (log (workflow transactionHash m (Response (Fulfilled raw) :: evs))) = 0
  /\ count isResolve (log (workflow transactionHash m (Response (Fulfilled raw) :: evs))) = 0
  /\ listening (workflow transactionHash m (Response (Fulfilled raw) :: evs)) = false
  /\ timeoutCounter (model (workflow transactionHash m (Response (Fulfilled raw) :: evs)))
     = timeoutCounter m
  /\ confirmationsCount (model (workflow transactionHash m (Response (Fulfilled raw) :: evs)))
     = confirmationsCount m.
Proof.
  assert (Hq : quiet transactionHash m
                 (workflow transactionHash m (Response (Fulfilled raw) :: evs))).
  { unfold workflow. apply run_quiet. rewrite execute_on_initial.
    split; [reflexivity|]. split; [reflexivity|]. left. split; reflexivity. }
  destruct Hq as (Hl & Hm & _).
  rewrite workflow_after_response, Hm.
  repeat split; try reflexivity. exact Hl.
Qed.

End WithinContract.

(** The world once the first check has been answered with [null] and
    [heads] head notifications have arrived since: the listener is
    registered, the watcher runs and [heads] re-fetches are in flight. *)
Definition subscribed (polling : bool) (rejectValue : JsValue)
  (m : TransactionConfirmationModel SampleReceipt) (heads : nat)
  : @World (sample polling rejectValue) :=
  @arriveAll (sample polling rejectValue) txHash
    (@ReceiptArrives (sample polling rejectValue) None :: repeat HeadArrives heads)
    (started polling rejectValue m).

Definition arrives (polling : bool) (rejectValue : JsValue)
  (receipt : option SampleReceipt) : @Arrival (sample polling rejectValue) :=
  @ReceiptArrives (sample polling rejectValue) receipt.

(** C2 at a transaction that is not mined on the first check and whose
    receipt is refused twice. *)
Lemma C2_witness :
  sampleValidate revertedReceipt = Invalid (Error "Transaction has been reverted by the EVM")
  /\ listening (subscribed false JsUndefined (newModel 3 50 750) 0) = true
  /\ watching (subscribed false JsUndefined (newModel 3 50 750) 0) = true
  /\ pending (subscribed false JsUndefined (newModel 3 50 750) 0) = []
  /\ count isCallback
       (log (arriveAll txHash
               [HeadArrives; arrives false JsUndefined revertedReceipt]
               (subscribed false JsUndefined (newModel 3 50 750) 0))) = 1
  /\ watching (arriveAll txHash
                 [HeadArrives; arrives false JsUndefined revertedReceipt]
                 (subscribed false JsUndefined (newModel 3 50 750) 0)) = true
  /\ count isCallback
       (log (arriveAll txHash
               [HeadArrives; arrives false JsUndefined revertedReceipt;
                HeadArrives; arrives false JsUndefined revertedReceipt]
               (subscribed false JsUndefined (newModel 3 50 750) 0))) = 2
  /\ count isEmitError
       (log (arriveAll txHash
               [HeadArrives; arrives false JsUndefined revertedReceipt;
                HeadArrives; arrives false JsUndefined revertedReceipt]
               (subscribed false JsUndefined (newModel 3 50 750) 0))) = 2.
Proof.
  assert (Hv : sampleValidate revertedReceipt =
               Invalid (Error "Transaction has been reverted by the EVM")) by reflexivity.
  split; [exact Hv|].
  split; [reflexivity|]. split; [reflexivity|]. split; [reflexivity|].
  destruct (@C2_refused_refetch_is_not_terminal (sample false JsUndefined) txHash
              revertedReceipt (Error "Transaction has been reverted by the EVM")
              (subscribed false JsUndefined (newModel 3 50 750) 0)
              Hv eq_refl eq_refl eq_refl eq_refl eq_refl)
    as (Hlog1 & Hw1 & _ & He2 & Hc2 & _).
  split; [etransitivity; [exact (f_equal (count isCallback) Hlog1) | reflexivity]|].
  split; [exact Hw1|].
  split; [etransitivity; [exact Hc2 | reflexivity]
         | etransitivity; [exact He2 | reflexivity]].
Defined.

(** * The further properties on concrete collaborators *)

(** X2 at a receipt whose block hash is the empty string, handed to the
    handler without a receiver. *)
Lemma X2_witness :
  fst (@firstCheckCallback (sample false JsUndefined) ThisUndefined
         (Some (mkReceipt (Some "") true))
         (started false JsUndefined (newModel 3 50 750))) = Normal tt
  /\ log (snd (@firstCheckCallback (sample false JsUndefined) ThisUndefined
                 (Some (mkReceipt (Some "") true))
                 (started false JsUndefined (newModel 3 50 750)))) =
     [Send "eth_getTransactionReceipt" [txHash]; Watch; OnNewHead].
Proof.
  rewrite (@X2_first_check_unmined_subscribes (sample false JsUndefined) ThisUndefined
             (Some (mkReceipt (Some "") true))
             (started false JsUndefined (newModel 3 50 750))).
  - split; reflexivity.
  - right. exists (mkReceipt (Some "") true). split; [reflexivity|].
    right. reflexivity.
Defined.

(** X3 at a transaction that is not mined, with a validator that refuses
    [null]. *)
Lemma X3_witness :
  @mined (sample false JsUndefined) None = false
  /\ sampleValidate None = Invalid (Error "Receipt missing or blockHash null")
  /\ count isCallback
       (log (deliverAll txHash
               [got false JsUndefined FirstCheck None; Head;
                got false JsUndefined Refetch None]
               (started false JsUndefined (newModel 3 50 750)))) = 1
  /\ watching (deliverAll txHash
                 [got false JsUndefined FirstCheck None; Head;
                  got false JsUndefined Refetch None]
                 (started false JsUndefined (newModel 3 50 750))) = true.
Proof.
  assert (Hm : @mined (sample false JsUndefined) None = false) by reflexivity.
  assert (Hv : sampleValidate None = Invalid (Error "Receipt missing or blockHash null"))
    by reflexivity.
  split; [exact Hm|]. split; [exact Hv|].
  destruct (@X3_unmined_receipt_fails_on_refetch (sample false JsUndefined) txHash None
              (Error "Receipt missing or blockHash null")
              (started false JsUndefined (newModel 3 50 750)) Hm Hv eq_refl)
    as (Hlog & Hw).
  split; [|exact Hw].
  etransitivity; [exact (f_equal (count isCallback) Hlog) | reflexivity].
Defined.

(** X4 at three reverted receipts in a row, for the three re-fetches that
    three head notifications have left in flight. *)
Lemma X4_witness :
  sampleValidate revertedReceipt = Invalid (Error "Transaction has been reverted by the EVM")
  /\ pending (subscribed false JsUndefined (newModel 3 50 750) 3) = [Refetch; Refetch; Refetch]
  /\ watching (deliverAll txHash (repeat (got false JsUndefined Refetch revertedReceipt) 3)
                 (subscribed false JsUndefined (newModel 3 50 750) 3)) = true
  /\ count isCallback
       (log (deliverAll txHash (repeat (got false JsUndefined Refetch revertedReceipt) 3)
               (subscribed false JsUndefined (newModel 3 50 750) 3))) = 3.
Proof.
  assert (Hv : sampleValidate revertedReceipt =
               Invalid (Error "Transaction has been reverted by the EVM")) by reflexivity.
  split; [exact Hv|]. split; [reflexivity|].
  destruct (@X4_refetch_failure_keeps_the_watcher (sample false JsUndefined) txHash
              revertedReceipt (Error "Transaction has been reverted by the EVM")
              (subscribed false JsUndefined (newModel 3 50 750) 3) 3 Hv)
    as (Hw & _ & _ & _ & Hc & _).
  split; (etransitivity; [eassumption | reflexivity]).
Defined.

(** X5 at the third head notification with a threshold of two blocks, for
    a reject that returns [undefined] and for one that returns something
    callable. *)
Lemma X5_witness :
  specIsTimeoutTimeExceeded false
    (incrementTimeoutCounter (model (waiting false JsUndefined (newModel 3 2 30) 2))) = true
  /\ count isCallback
       (log (@notify (sample false JsUndefined) txHash
               (waiting false JsUndefined (newModel 3 2 30) 2))) = 0
  /\ specIsTimeoutTimeExceeded false
       (incrementTimeoutCounter (model (waiting false JsCallable (newModel 3 2 30) 2))) = true
  /\ count isCallback
       (log (@notify (sample false JsCallable) txHash
               (waiting false JsCallable (newModel 3 2 30) 2))) = 1.
Proof.
  assert (Hu : specIsTimeoutTimeExceeded false
                 (incrementTimeoutCounter
                    (model (waiting false JsUndefined (newModel 3 2 30) 2))) = true)
    by reflexivity.
  assert (Hc : specIsTimeoutTimeExceeded false
                 (incrementTimeoutCounter
                    (model (waiting false JsCallable (newModel 3 2 30) 2))) = true)
    by reflexivity.
  split; [exact Hu|]. split; [|split; [exact Hc|]].
  - destruct (@X5_timeout_after_the_reject (sample false JsUndefined) txHash
                (waiting false JsUndefined (newModel 3 2 30) 2) Hu) as (Hthrows & _).
    etransitivity;
      [exact (f_equal (fun x => count isCallback (log x)) (Hthrows eq_refl)) | reflexivity].
  - destruct (@X5_timeout_after_the_reject (sample false JsCallable) txHash
                (waiting false JsCallable (newModel 3 2 30) 2) Hc) as (_ & Hruns).
    etransitivity;
      [exact (f_equal (fun x => count isCallback (log x)) (Hruns eq_refl)) | reflexivity].
Defined.

(** X6 with one confirmation required: two more valid receipts after the
    one that confirmed. *)
Lemma X6_witness :
  sampleValidate minedReceipt = Valid
  /\ specIsConfirmed
       (model (deliverAll txHash [got false JsUndefined Refetch minedReceipt]
                 (waiting false JsUndefined (newModel 1 50 750) 3))) = true
  /\ count isCallback
       (log (deliverAll txHash (repeat (got false JsUndefined Refetch minedReceipt) 2)
               (deliverAll txHash [got false JsUndefined Refetch minedReceipt]
                  (waiting false JsUndefined (newModel 1 50 750) 3)))) = 3.
Proof.
  assert (Hv : sampleValidate minedReceipt = Valid) by reflexivity.
  assert (Hc : specIsConfirmed
                 (model (deliverAll txHash [got false JsUndefined Refetch minedReceipt]
                           (waiting false JsUndefined (newModel 1 50 750) 3))) = true)
    by reflexivity.
  assert (Hmono : forall m : TransactionConfirmationModel SampleReceipt,
             specIsConfirmed m = true ->
             specIsConfirmed (specAddConfirmation minedReceipt m) = true).
  { intros m H. unfold specIsConfirmed in *. simpl.
    apply Nat.leb_le in H. apply Nat.leb_le. lia. }
  split; [exact Hv|]. split; [exact Hc|].
  destruct (@X6_valid_refetch_after_depth_repeats_success (sample false JsUndefined)
              txHash minedReceipt
              (deliverAll txHash [got false JsUndefined Refetch minedReceipt]
                 (waiting false JsUndefined (newModel 1 50 750) 3))
              2 Hv Hmono Hc)
    as (_ & _ & _ & Hcb).
  etransitivity; [exact Hcb | reflexivity].
Defined.

(** X7 at three head notifications in a row with a threshold of 50, once
    the first check has been answered and nothing is in flight. *)
Lemma X7_witness :
  (forall k, (k < 3)%nat ->
     specIsTimeoutTimeExceeded false
       (Nat.iter (S k) incrementTimeoutCounter
          (model (subscribed false JsUndefined (newModel 3 50 750) 0))) = false)
  /\ pending (subscribed false JsUndefined (newModel 3 50 750) 0) = []
  /\ pending (@deliverAll (sample false JsUndefined) txHash (repeat Head 3)
                (subscribed false JsUndefined (newModel 3 50 750) 0)) =
     [Refetch; Refetch; Refetch]
  /\ timeoutCounter
       (model (@deliverAll (sample false JsUndefined) txHash (repeat Head 3)
                 (subscribed false JsUndefined (newModel 3 50 750) 0))) = 3.
Proof.
  assert (Hbelow : forall k, (k < 3)%nat ->
             specIsTimeoutTimeExceeded false
               (Nat.iter (S k) incrementTimeoutCounter
                  (model (subscribed false JsUndefined (newModel 3 50 750) 0))) = false).
  { intros k Hk. destruct k as [|[|[|k]]]; try reflexivity. lia. }
  split; [exact Hbelow|]. split; [reflexivity|].
  destruct (@X7_heads_do_not_wait_for_the_fetch (sample false JsUndefined) txHash
              (subscribed false JsUndefined (newModel 3 50 750) 0) 3 Hbelow)
    as (Hp & _ & Ht).
  split; (etransitivity; [eassumption | reflexivity]).
Defined.
